(** * Thread art tools: generator and visualizer

    A shallow embedding of [thread_art_generator.py] and
    [thread_art_visualizer.py].

    - [Py]: the Python values that [yaml.safe_load] hands to the loader
      (core schema), the exceptions the two scripts can raise, and the
      dynamic operations the scripts apply to those values.
    - [Num]: the float arithmetic the generator uses, as an interface with
      two instances: [Binary64] (IEEE doubles, what CPython executes; it
      evaluates) and [Exact] (real numbers, the arithmetic in which the
      geometry of the layouts is stated).
    - [Generator], [Visualizer]: the functions of the two scripts.

    Outside the model: values of YAML tags beyond the core schema
    (timestamps, binary, sets), the text of the written file (the rows of
    the file are kept as data), the calls into matplotlib, and the limits
    of memory. *)

From Stdlib Require Import ZArith List String Ascii Bool Lia.
From Stdlib Require Import Floats.
From Stdlib Require Import Reals Lra Zfloor.
Import ListNotations.

Set Implicit Arguments.

(* ================================================================== *)
(** * Python values, exceptions and results *)
(* ================================================================== *)

Module Py.

(** The keys of a mapping are hashable: [yaml.safe_load] refuses a
    sequence or a mapping as a key. *)
Inductive pykey : Type :=
| KNone
| KBool (b : bool)
| KInt (z : Z)
| KFloat (f : float)
| KStr (s : string).

(** What [yaml.safe_load] returns for a document of the core schema:
    [None], booleans, integers, floats, strings, sequences and mappings.
    A mapping is the list of its items in insertion order. *)
#[warnings="-register-all"]
Inductive pyval : Type :=
| PyNone
| PyBool (b : bool)
| PyInt (z : Z)
| PyFloat (f : float)
| PyStr (s : string)
| PyList (l : list pyval)
| PyDict (items : list (pykey * pyval)).

Definition of_key (k : pykey) : pyval :=
  match k with
  | KNone => PyNone
  | KBool b => PyBool b
  | KInt z => PyInt z
  | KFloat f => PyFloat f
  | KStr s => PyStr s
  end.

(** The texts of the [ValueError]s the scripts raise.  Each constructor is
    one f-string of the source, carrying the values it interpolates. *)
Inductive message : Type :=
| SquareNeeds4                     (* "Square shape requires at least 4 nails" *)
| UnsupportedShape (shape : string)(* "Unsupported shape: {shape}. Use ..." *)
| MissingKeys                      (* "YAML file must contain 'nails' and 'thread' keys" *)
| NailNotPair (i : nat)            (* "Nail {i} must be a list of 2 coordinates" *)
| NailOutsideUnitSquare (i : nat)  (* "Nail {i} coordinates must be in unit square [0,1]" *)
| ThreadPointInvalid (i : nat) (nail_idx : pyval) (max_nail_index : Z)
                                   (* "Thread point {i}: nail index {nail_idx} is
                                       invalid (must be 0-{max_nail_index})" *)
| UnpackMismatch.                  (* "too many / not enough values to unpack" *)

Inductive exn : Type :=
| ValueError (m : message)
| TypeError
| OverflowError
| ZeroDivisionError
| IndexError
| KeyError
| FileNotFoundError
| YAMLError
| IOError.

(** A computation that returns or raises. *)
Inductive result (A : Type) : Type :=
| Ok (a : A)
| Raise (e : exn).
Arguments Ok {A} a.
Arguments Raise {A} e.

Definition bind {A B : Type} (r : result A) (k : A -> result B) : result B :=
  match r with
  | Ok a => k a
  | Raise e => Raise e
  end.

Declare Scope py_scope.
Delimit Scope py_scope with py.
Notation "x <- c1 ;; c2" := (bind c1 (fun x => c2))
  (at level 61, c1 at next level, right associativity) : py_scope.
Notation "c1 ;; c2" := (bind c1 (fun _ => c2))
  (at level 61, right associativity) : py_scope.
Local Open Scope py_scope.

(** What a line printed by the scripts says. *)
Inductive diagnostic : Type :=
| MsgNumberMustBePositive          (* "Error: Number of nails must be positive" *)
| MsgSquareNeeds4                  (* "Error: Square shape requires at least 4 nails" *)
| MsgError (e : message)           (* "Error: {e}" *)
| MsgErrorWritingFile              (* "Error writing file: {e}" *)
| MsgFileNotFound (path : string)  (* "Error: File '{file_path}' not found" *)
| MsgErrorParsingYAML              (* "Error parsing YAML: {e}" *)
| MsgErrorInFileFormat (e : message) (* "Error in file format: {e}" *)
| MsgUsage.                        (* argparse's usage error *)

(** How a call that may end the process comes back: it returns, it prints
    and calls [sys.exit(status)], or an exception leaves it uncaught. *)
Inductive outcome (A : Type) : Type :=
| Returns (a : A)
| Exits (status : Z) (printed : diagnostic)
| Uncaught (e : exn).
Arguments Returns {A} a.
Arguments Exits {A} status printed.
Arguments Uncaught {A} e.

(** ** Numbers met in a file *)

(** [f == z] for a float and an integer: Python compares the exact values. *)
Definition float_eq_int (f : float) (z : Z) : bool :=
  match Prim2SF f with
  | S754_zero _ => (z =? 0)%Z
  | S754_finite s m e =>
      let n := if s then Z.neg m else Z.pos m in
      if (0 <=? e)%Z then (n * 2 ^ e =? z)%Z else (n =? z * 2 ^ (- e))%Z
  | _ => false
  end.

Definition Z_of_bool (b : bool) : Z := if b then 1%Z else 0%Z.

(** [a == b] on scalars (and [False] when a sequence or a mapping is
    compared with a scalar). *)
Definition py_eqb (a b : pyval) : bool :=
  match a, b with
  | PyNone, PyNone => true
  | PyStr s, PyStr t => String.eqb s t
  | PyBool x, PyBool y => Bool.eqb x y
  | PyBool x, PyInt z | PyInt z, PyBool x => (Z_of_bool x =? z)%Z
  | PyInt x, PyInt y => (x =? y)%Z
  | PyFloat f, PyFloat g => PrimFloat.eqb f g
  | PyFloat f, PyInt z | PyInt z, PyFloat f => float_eq_int f z
  | PyFloat f, PyBool x | PyBool x, PyFloat f => float_eq_int f (Z_of_bool x)
  | _, _ => false
  end.

(** [isinstance(v, int)]: [bool] is a subclass of [int]. *)
Definition isinstance_int (v : pyval) : bool :=
  match v with
  | PyInt _ | PyBool _ => true
  | _ => false
  end.

(** [lo <= v] and [v <= hi] for integer literals [lo], [hi]: defined on
    numbers, a [TypeError] on anything else.  A NaN compares false. *)
Definition int_le_val (lo : Z) (v : pyval) : result bool :=
  match v with
  | PyBool b => Ok (lo <=? Z_of_bool b)%Z
  | PyInt z => Ok (lo <=? z)%Z
  | PyFloat f => Ok (PrimFloat.leb (SF2Prim (binary_normalize prec emax lo 0 false)) f)
  | _ => Raise TypeError
  end.

Definition val_le_int (v : pyval) (hi : Z) : result bool :=
  match v with
  | PyBool b => Ok (Z_of_bool b <=? hi)%Z
  | PyInt z => Ok (z <=? hi)%Z
  | PyFloat f => Ok (PrimFloat.leb f (SF2Prim (binary_normalize prec emax hi 0 false)))
  | _ => Raise TypeError
  end.

(** The chained comparison [lo <= v <= hi]: the second comparison is made
    only when the first holds. *)
Definition chained_le (lo : Z) (v : pyval) (hi : Z) : result bool :=
  b <- int_le_val lo v ;;
  if b then val_le_int v hi else Ok false.

(** ** Containers *)

Fixpoint chars (s : string) : list pyval :=
  match s with
  | EmptyString => []
  | String c s' => PyStr (String c EmptyString) :: chars s'
  end.

(** Iteration ([for ... in v], [enumerate(v)]): the elements of a list, the
    characters of a string, the keys of a mapping. *)
Definition py_iter (v : pyval) : result (list pyval) :=
  match v with
  | PyList l => Ok l
  | PyStr s => Ok (chars s)
  | PyDict items => Ok (map (fun kv => of_key (fst kv)) items)
  | _ => Raise TypeError
  end.

Definition py_len (v : pyval) : result Z :=
  match v with
  | PyList l => Ok (Z.of_nat (List.length l))
  | PyStr s => Ok (Z.of_nat (String.length s))
  | PyDict items => Ok (Z.of_nat (List.length items))
  | _ => Raise TypeError
  end.

(** Truth value ([if v:]). *)
Definition py_truthy (v : pyval) : bool :=
  match v with
  | PyNone => false
  | PyBool b => b
  | PyInt z => negb (z =? 0)%Z
  | PyFloat f => negb (PrimFloat.eqb f 0%float)
  | PyStr s => negb (String.eqb s EmptyString)
  | PyList l => match l with [] => false | _ => true end
  | PyDict d => match d with [] => false | _ => true end
  end.

Fixpoint is_substring (needle hay : string) : bool :=
  match hay with
  | EmptyString => String.eqb needle EmptyString
  | String _ hay' => String.prefix needle hay || is_substring needle hay'
  end.

(** [key in v] for a string [key]. *)
Definition py_contains_str (key : string) (v : pyval) : result bool :=
  match v with
  | PyDict items => Ok (existsb (fun kv => py_eqb (of_key (fst kv)) (PyStr key)) items)
  | PyList l => Ok (existsb (fun x => py_eqb x (PyStr key)) l)
  | PyStr s => Ok (is_substring key s)
  | _ => Raise TypeError
  end.

Fixpoint lookup (k : pyval) (items : list (pykey * pyval)) : option pyval :=
  match items with
  | [] => None
  | (k', v) :: rest => if py_eqb (of_key k') k then Some v else lookup k rest
  end.

(** Sequence indexing with an integer: a negative index counts from the
    end, and an index outside the sequence is an [IndexError]. *)
Definition seq_index {A : Type} (l : list A) (i : Z) : result A :=
  let n := Z.of_nat (List.length l) in
  let j := if (i <? 0)%Z then (i + n)%Z else i in
  if (j <? 0)%Z || (n <=? j)%Z then Raise IndexError
  else match nth_error l (Z.to_nat j) with
       | Some a => Ok a
       | None => Raise IndexError
       end.

(** [v[k]]. *)
Definition py_getitem (v k : pyval) : result pyval :=
  match v with
  | PyList l =>
      match k with
      | PyInt i => seq_index l i
      | PyBool b => seq_index l (Z_of_bool b)
      | _ => Raise TypeError
      end
  | PyStr s =>
      match k with
      | PyInt i => seq_index (chars s) i
      | PyBool b => seq_index (chars s) (Z_of_bool b)
      | _ => Raise TypeError
      end
  | PyDict items =>
      match k with
      | PyList _ | PyDict _ => Raise TypeError   (* unhashable key *)
      | _ =>
          match lookup k items with
          | Some x => Ok x
          | None => Raise KeyError
          end
      end
  | _ => Raise TypeError
  end.

(** [x, y = v]: unpacking into exactly two targets. *)
Definition unpack2 (v : pyval) : result (pyval * pyval) :=
  l <- py_iter v ;;
  match l with
  | [x; y] => Ok (x, y)
  | _ => Raise (ValueError UnpackMismatch)
  end.

(** ** Loops *)

(** A [for] loop that appends one value per element and stops at the
    first exception. *)
Fixpoint for_each {A B : Type} (body : A -> result B) (l : list A) : result (list B) :=
  match l with
  | [] => Ok []
  | a :: l' =>
      b <- body a ;;
      bs <- for_each body l' ;;
      Ok (b :: bs)
  end.

(** [enumerate(l)], counting from [i]. *)
Fixpoint enumerate_from {A : Type} (i : nat) (l : list A) : list (nat * A) :=
  match l with
  | [] => []
  | a :: l' => (i, a) :: enumerate_from (S i) l'
  end.

End Py.

(* ================================================================== *)
(** * Float arithmetic *)
(* ================================================================== *)

Module Num.
Import Py.

(** The operations the generator applies to Python floats. *)
Class Float (F : Type) : Type := {
  (** [float(n)] for an integer [n]; [None] is the [OverflowError] of an
      integer too large for a float. *)
  of_int : Z -> option F;
  (** The literals [0.0], [0.5], [1.0], [2.0], [3.0], [4.0]. *)
  zero : F;
  half : F;
  one : F;
  two : F;
  three : F;
  four : F;
  add : F -> F -> F;
  sub : F -> F -> F;
  mul : F -> F -> F;
  div : F -> F -> F;
  is_zero : F -> bool;
  (** [x % y] for a divisor [y] that is not zero. *)
  mod_ : F -> F -> F;
  leb : F -> F -> bool;
  (** [round(x, 6)]. *)
  round6 : F -> F;
  round6_zero : round6 zero = zero;
  round6_one : round6 one = one
}.

(** [math.pi], [math.cos], [math.sin]. *)
Class Libm (F : Type) : Type := {
  pi : F;
  cos : F -> F;
  sin : F -> F
}.

(** ** IEEE binary64, as CPython computes *)

Module Binary64.

(** The double nearest to [n / d] (ties to even), for [0 < d]. *)
Definition nearest (n : Z) (d : Z) : float :=
  match n with
  | Z0 => 0%float
  | _ =>
      let a := Z.abs n in
      let k := Z.max 0 (66 + Z.log2 d - Z.log2 a) in
      let q := (a * 2 ^ k / d)%Z in
      let r := (a * 2 ^ k mod d)%Z in
      let l := if (r =? 0)%Z then loc_Exact else loc_Inexact (2 * r ?= d)%Z in
      SF2Prim (binary_round_aux prec emax (n <? 0)%Z q (- k) l)
  end.

Definition of_int (z : Z) : option float :=
  match binary_normalize prec emax z 0 false with
  | S754_infinity _ => None
  | x => Some (SF2Prim x)
  end.

(** The integer nearest to [n / d], ties to the even one, for [0 < d]. *)
Definition div_half_even (n d : Z) : Z :=
  let q := (n / d)%Z in
  match (2 * (n mod d) ?= d)%Z with
  | Lt => q
  | Gt => (q + 1)%Z
  | Eq => if Z.even q then q else (q + 1)%Z
  end.

(** [round(x, 6)]: the exact value of [x] is rounded to the nearest
    multiple of 10^-6, ties to the even digit, and the double nearest to
    that decimal is returned; zeros, infinities and NaN round to
    themselves. *)
Definition round6 (x : float) : float :=
  match Prim2SF x with
  | S754_finite s m e =>
      let n := ((if s then Z.neg m else Z.pos m) * 1000000)%Z in
      let k := if (0 <=? e)%Z then (n * 2 ^ e)%Z else div_half_even n (2 ^ (- e)) in
      if (k =? 0)%Z then (if s then (-0)%float else 0%float)
      else nearest k 1000000
  | _ => x
  end.

(** C's [fmod]: the exact remainder of the truncated division, with the
    sign of [x]. *)
Definition c_fmod (x y : float) : float :=
  match Prim2SF x, Prim2SF y with
  | S754_nan, _ | _, S754_nan => nan
  | S754_infinity _, _ | _, S754_zero _ => nan
  | S754_zero _, _ => x
  | S754_finite _ _ _, S754_infinity _ => x
  | S754_finite sx mx ex, S754_finite _ my ey =>
      let e := Z.min ex ey in
      let r := ((Z.pos mx * 2 ^ (ex - e)) mod (Z.pos my * 2 ^ (ey - e)))%Z in
      SF2Prim (binary_normalize prec emax (if sx then (- r)%Z else r) e sx)
  end.

(** Python's [x % y] on floats: [fmod] moved to the sign of [y]. *)
Definition py_mod (x y : float) : float :=
  let m := c_fmod x y in
  if PrimFloat.eqb m 0%float then
    (if PrimFloat.ltb y 0%float then (-0)%float else 0%float)
  else if Bool.eqb (PrimFloat.ltb y 0%float) (PrimFloat.ltb m 0%float) then m
  else (m + y)%float.

#[global] Instance binary64 : Float float := {
  of_int := of_int;
  zero := 0%float;
  half := 0.5%float;
  one := 1%float;
  two := 2%float;
  three := 3%float;
  four := 4%float;
  add := PrimFloat.add;
  sub := PrimFloat.sub;
  mul := PrimFloat.mul;
  div := PrimFloat.div;
  is_zero := fun x => PrimFloat.eqb x 0%float;
  mod_ := py_mod;
  leb := PrimFloat.leb;
  round6 := round6;
  round6_zero := eq_refl;
  round6_one := eq_refl
}.

End Binary64.

(** ** Exact arithmetic *)

Module Exact.

Local Open Scope R_scope.

(** The integer nearest to [t], ties to the even one. *)
Definition round_half_even (t : R) : Z :=
  let f := Zfloor t in
  if Rlt_dec (t - IZR f) (1 / 2) then f
  else if Rlt_dec (1 / 2) (t - IZR f) then (f + 1)%Z
  else if Z.even f then f else (f + 1)%Z.

Definition round6 (x : R) : R := IZR (round_half_even (x * 1000000)) / 1000000.

(** [x % y]: the remainder of the floor division, which has the sign of
    [y]. *)
Definition py_mod (x y : R) : R := x - y * IZR (Zfloor (x / y)).

Definition Rleb (x y : R) : bool := if Rle_dec x y then true else false.

Definition Reqb (x y : R) : bool := if Req_dec_T x y then true else false.

Lemma round_half_even_IZR (z : Z) : round_half_even (IZR z) = z.
Proof.
  unfold round_half_even. rewrite ZfloorZ.
  destruct (Rlt_dec (IZR z - IZR z) (1 / 2)) as [_ | H]; [reflexivity | exfalso; lra].
Qed.

Lemma round6_IZR (z : Z) : round6 (IZR z) = IZR z.
Proof.
  unfold round6. rewrite <- mult_IZR, round_half_even_IZR, mult_IZR. field.
Qed.

#[global] Instance exact : Float R := {
  of_int := fun z => Some (IZR z);
  zero := 0;
  half := 1 / 2;
  one := 1;
  two := 2;
  three := 3;
  four := 4;
  add := Rplus;
  sub := Rminus;
  mul := Rmult;
  div := Rdiv;
  is_zero := fun x => Reqb x 0;
  mod_ := py_mod;
  leb := Rleb;
  round6 := round6;
  round6_zero := round6_IZR 0;
  round6_one := round6_IZR 1
}.

#[global] Instance libm : Libm R := {
  pi := PI;
  cos := Rtrigo_def.cos;
  sin := Rtrigo_def.sin
}.

End Exact.

End Num.

(* ================================================================== *)
(** * thread_art_generator.py *)
(* ================================================================== *)

Module Generator.
Import Py Num.
Local Open Scope py_scope.

Section Layouts.

Context {F : Type} {FF : Float F}.

(** [a / b] on floats raises [ZeroDivisionError] when [b] is zero. *)
Definition truediv (a b : F) : result F :=
  if is_zero b then Raise ZeroDivisionError else Ok (div a b).

(** [float(n)], as the mixed int/float operations convert an integer. *)
Definition to_float (n : Z) : result F :=
  match of_int n with
  | Some x => Ok x
  | None => Raise OverflowError
  end.

(** [range(n)]. *)
Definition range (n : Z) : list Z := map Z.of_nat (seq 0 (Z.to_nat n)).

(** One iteration of the loop of [generate_circle_nails]. *)
Definition circle_nail {L : Libm F} (num_nails i : Z) : result (F * F) :=
  let center_x := half in
  let center_y := half in
  let radius := half in
  fi <- to_float i ;;
  fn <- to_float num_nails ;;
  angle <- truediv (mul (mul two pi) fi) fn ;;
  let x := add center_x (mul radius (cos angle)) in
  let y := add center_y (mul radius (sin angle)) in
  Ok (round6 x, round6 y).

Definition generate_circle_nails {L : Libm F} (num_nails : Z) : result (list (F * F)) :=
  for_each (circle_nail num_nails) (range num_nails).

(** The four branches of the loop of [generate_square_nails]: the point
    of the perimeter at [pos_on_perimeter]. *)
Definition edge_point (pos_on_perimeter : F) : F * F :=
  if leb pos_on_perimeter one then
    (pos_on_perimeter, zero)
  else if leb pos_on_perimeter two then
    (one, sub pos_on_perimeter one)
  else if leb pos_on_perimeter three then
    (sub one (sub pos_on_perimeter two), one)
  else
    (zero, sub one (sub pos_on_perimeter three)).

Definition rounded (p : F * F) : F * F := (round6 (fst p), round6 (snd p)).

(** The loop of [generate_square_nails], with [k] iterations left. *)
Fixpoint square_loop (k : nat) (current_pos spacing : F) : list (F * F) :=
  match k with
  | O => []
  | S k' =>
      let perimeter := four in
      let pos_on_perimeter := mod_ current_pos perimeter in
      rounded (edge_point pos_on_perimeter)
        :: square_loop k' (add current_pos spacing) spacing
  end.

Definition generate_square_nails (num_nails : Z) : result (list (F * F)) :=
  if (num_nails <? 4)%Z then Raise (ValueError SquareNeeds4)
  else
    let perimeter := four in
    fn <- to_float num_nails ;;
    spacing <- truediv perimeter fn ;;
    Ok (square_loop (Z.to_nat num_nails) zero spacing).

(** [str.lower()] on ASCII letters. *)
Definition lower_ascii (c : ascii) : ascii :=
  let n := nat_of_ascii c in
  if (65 <=? n)%nat && (n <=? 90)%nat then ascii_of_nat (n + 32) else c.

Fixpoint lower (s : string) : string :=
  match s with
  | EmptyString => EmptyString
  | String c s' => String (lower_ascii c) (lower s')
  end.

(** The text [create_thread_art_file] writes: the header comments with
    the count and the shape, one row [- [x, y]    # nail i] per nail, and
    the row [thread: []]. *)
Record yaml_content : Type := {
  header_num_nails : Z;
  header_shape : string;
  nail_rows : list (nat * (F * F));
  thread_row : list Z
}.

(** [writable] says whether opening and writing [output_path] succeeds. *)
Definition create_thread_art_file {L : Libm F}
    (num_nails : Z) (shape : string) (writable : bool) : outcome yaml_content :=
  let generated :=
    if String.eqb (lower shape) "circle" then generate_circle_nails num_nails
    else if String.eqb (lower shape) "square" then generate_square_nails num_nails
    else Raise (ValueError (UnsupportedShape shape)) in
  match generated with
  | Raise e => Uncaught e
  | Ok nails =>
      let yaml_content :=
        {| header_num_nails := num_nails;
           header_shape := shape;
           nail_rows := enumerate_from 0 nails;
           thread_row := [] |} in
      if writable then Returns yaml_content
      else Exits 1 MsgErrorWritingFile
  end.

(** [main], after [argparse] has read [num_nails] as an integer: a shape
    outside [choices] is a usage error (status 2). *)
Definition main {L : Libm F}
    (num_nails : Z) (shape : string) (writable : bool) : outcome yaml_content :=
  if negb (String.eqb shape "circle" || String.eqb shape "square") then
    Exits 2 MsgUsage
  else if (num_nails <=? 0)%Z then
    Exits 1 MsgNumberMustBePositive
  else if String.eqb (lower shape) "square" && (num_nails <? 4)%Z then
    Exits 1 MsgSquareNeeds4
  else
    match create_thread_art_file num_nails shape writable with
    | Uncaught (ValueError e) => Exits 1 (MsgError e)
    | o => o
    end.

(** ** The layout as the design document words it *)


(** The perimeter of the unit square as a ring of length 4 that starts at
    (0,0): segment [0,1) is the bottom edge left to right, [1,2) the right
    edge bottom to top, [2,3) the top edge right to left, [3,4) the left
    edge top to bottom, with linear interpolation along the edge. *)
Definition segment_point (t : F) : F * F :=
  let ltb a b := negb (leb b a) in
  if ltb t one then (t, zero)
  else if ltb t two then (one, sub t one)
  else if ltb t three then (sub one (sub t two), one)
  else (zero, sub one (sub t three)).


End Layouts.


End Generator.

(* ================================================================== *)
(** * thread_art_visualizer.py *)
(* ================================================================== *)

Module Visualizer.
Import Py.
Local Open Scope py_scope.

(** What [open] and [yaml.safe_load] find at [file_path]. *)
Inductive file_state : Type :=
| Missing                 (* open raises FileNotFoundError *)
| Unreadable              (* open raises another OSError *)
| Unparsable              (* safe_load raises a YAMLError *)
| Parsed (data : pyval).  (* safe_load returns data *)

(** The body of the loop over [enumerate(nails)]. *)
Definition check_nail (i : nat) (nail : pyval) : result unit :=
  match nail with
  | PyList [x; y] =>
      in_x <- chained_le 0 x 1 ;;
      in_xy <- (if in_x then chained_le 0 y 1 else Ok false) ;;
      if negb in_xy then Raise (ValueError (NailOutsideUnitSquare i))
      else Ok tt
  | _ => Raise (ValueError (NailNotPair i))
  end.

Fixpoint check_nails (i : nat) (nails : list pyval) : result unit :=
  match nails with
  | [] => Ok tt
  | nail :: rest => check_nail i nail ;; check_nails (S i) rest
  end.

(** The body of the loop over [enumerate(thread)]. *)
Definition check_thread_point (max_nail_index : Z) (i : nat) (nail_idx : pyval)
  : result unit :=
  let in_range :=
    match nail_idx with
    | PyInt z => (0 <=? z)%Z && (z <=? max_nail_index)%Z
    | PyBool b => (0 <=? Z_of_bool b)%Z && (Z_of_bool b <=? max_nail_index)%Z
    | _ => false
    end in
  if negb (isinstance_int nail_idx) || negb in_range
  then Raise (ValueError (ThreadPointInvalid i nail_idx max_nail_index))
  else Ok tt.

Fixpoint check_thread (max_nail_index : Z) (i : nat) (thread : list pyval)
  : result unit :=
  match thread with
  | [] => Ok tt
  | nail_idx :: rest =>
      check_thread_point max_nail_index i nail_idx ;;
      check_thread max_nail_index (S i) rest
  end.

(** The statements inside [try:], after [open]. *)
Definition load_body (st : file_state) : result (pyval * pyval) :=
  match st with
  | Missing => Raise FileNotFoundError
  | Unreadable => Raise IOError
  | Unparsable => Raise YAMLError
  | Parsed data =>
      has_nails <- py_contains_str "nails" data ;;
      has_both <- (if has_nails then py_contains_str "thread" data else Ok false) ;;
      if negb has_both then Raise (ValueError MissingKeys)
      else
        nails <- py_getitem data (PyStr "nails") ;;
        thread <- py_getitem data (PyStr "thread") ;;
        nail_list <- py_iter nails ;;
        check_nails 0 nail_list ;;
        len_nails <- py_len nails ;;
        let max_nail_index := (len_nails - 1)%Z in
        thread_list <- py_iter thread ;;
        check_thread max_nail_index 0 thread_list ;;
        Ok (nails, thread)
  end.

(** [load_thread_art]: the three [except] clauses print and exit with
    status 1; any other exception leaves the function. *)
Definition load_thread_art (file_path : string) (st : file_state)
  : outcome (pyval * pyval) :=
  match load_body st with
  | Ok r => Returns r
  | Raise FileNotFoundError => Exits 1 (MsgFileNotFound file_path)
  | Raise YAMLError => Exits 1 MsgErrorParsingYAML
  | Raise (ValueError e) => Exits 1 (MsgErrorInFileFormat e)
  | Raise e => Uncaught e
  end.

(** What [visualize_thread_art] hands to the plotting library. *)
Record scene : Type := {
  polyline : list (pyval * pyval);        (* thread_x, thread_y *)
  discs : list (nat * (pyval * pyval));   (* one circle and label per nail *)
  markers : option ((pyval * pyval) * (pyval * pyval)); (* start, end *)
  stats_nails : Z;
  stats_segments : Z
}.

(** The list accesses and unpackings of [visualize_thread_art], in the
    order of the source; the calls into matplotlib are taken to
    succeed. *)
Definition visualize_thread_art (nails thread : pyval) : result scene :=
  thread_list <- py_iter thread ;;
  line <- for_each (fun nail_idx =>
            nail <- py_getitem nails nail_idx ;; unpack2 nail) thread_list ;;
  nail_list <- py_iter nails ;;
  ds <- for_each (fun ix =>
          xy <- unpack2 (snd ix) ;; Ok (fst ix, xy))
          (enumerate_from 0 nail_list) ;;
  ms <- (if py_truthy thread then
           t0 <- py_getitem thread (PyInt 0) ;;
           start_nail <- py_getitem nails t0 ;;
           tn <- py_getitem thread (PyInt (-1)) ;;
           end_nail <- py_getitem nails tn ;;
           sx <- py_getitem start_nail (PyInt 0) ;;
           sy <- py_getitem start_nail (PyInt 1) ;;
           ex <- py_getitem end_nail (PyInt 0) ;;
           ey <- py_getitem end_nail (PyInt 1) ;;
           Ok (Some ((sx, sy), (ex, ey)))
         else Ok None) ;;
  len_nails <- py_len nails ;;
  len_thread <- py_len thread ;;
  Ok {| polyline := line;
        discs := ds;
        markers := ms;
        stats_nails := len_nails;
        stats_segments := if py_truthy thread then (len_thread - 1)%Z else 0%Z |}.

(** [main]: load, then render. *)
Definition main (file_path : string) (st : file_state) : outcome scene :=
  match load_thread_art file_path st with
  | Returns (nails, thread) =>
      match visualize_thread_art nails thread with
      | Ok s => Returns s
      | Raise e => Uncaught e
      end
  | Exits status printed => Exits status printed
  | Uncaught e => Uncaught e
  end.

End Visualizer.

(* ================================================================== *)
(** * The loader: what a valid file is *)
(* ================================================================== *)

Module FileFormat.
Import Py.

(** A number, as [0 <= x <= 1] can compare it. *)
Definition numeric (v : pyval) : bool :=
  match v with
  | PyBool _ | PyInt _ | PyFloat _ => true
  | _ => false
  end.

(** A number within [0, 1]. *)
Definition in_unit (v : pyval) : bool :=
  match v with
  | PyBool _ => true
  | PyInt z => (0 <=? z)%Z && (z <=? 1)%Z
  | PyFloat f => PrimFloat.leb 0%float f && PrimFloat.leb f 1%float
  | _ => false
  end.

(** An entry of [nails] as the file format wants it: a sequence of exactly
    two numbers, each within [0, 1]. *)
Definition valid_nail (v : pyval) : bool :=
  match v with
  | PyList [x; y] => in_unit x && in_unit y
  | _ => false
  end.

(** An entry of [nails] that is not a sequence of exactly two elements. *)
Definition not_a_pair (v : pyval) : bool :=
  match v with
  | PyList [_; _] => false
  | _ => true
  end.

(** An entry of [nails] that is a pair of numbers, one of them outside
    [0, 1]. *)
Definition numbers_outside_unit (v : pyval) : bool :=
  match v with
  | PyList [x; y] => numeric x && numeric y && negb (in_unit x && in_unit y)
  | _ => false
  end.

(** An entry of [thread] as the file format wants it: an integer within
    [0, len(nails) - 1]. *)
Definition valid_thread_point (len_nails : Z) (v : pyval) : bool :=
  match v with
  | PyInt z => (0 <=? z)%Z && (z <=? len_nails - 1)%Z
  | PyBool b => (0 <=? Z_of_bool b)%Z && (Z_of_bool b <=? len_nails - 1)%Z
  | _ => false
  end.

(** Entry [i] of [l] is [v], it is [bad], and no entry before it is. *)
Definition first_bad {A : Type} (bad : A -> bool) (l : list A) (i : nat) (v : A) : Prop :=
  nth_error l i = Some v /\
  bad v = true /\
  forall j w, (j < i)%nat -> nth_error l j = Some w -> bad w = false.

(** A parsed document with the two keys. *)
Definition document (nails thread : pyval) : pyval :=
  PyDict [(KStr "nails", nails); (KStr "thread", thread)].

Definition point (x y : float) : pyval := PyList [PyFloat x; PyFloat y].

(** A sequence of exactly two elements. *)
Definition is_pair (v : pyval) : Prop := exists x y, v = PyList [x; y].

End FileFormat.

(* ================================================================== *)
(** * Vocabulary of the further properties *)
(* ================================================================== *)

Module Vocabulary.
Import Py Num Generator.
Local Open Scope string_scope.


Section Shapes.

Context {F : Type} {FF : Float F} {L : Libm F}.

(** The layout [create_thread_art_file] generates for [shape]. *)
Definition layout_for (num_nails : Z) (shape : string) : result (list (F * F)) :=
  if String.eqb (lower shape) "circle" then generate_circle_nails num_nails
  else if String.eqb (lower shape) "square" then generate_square_nails num_nails
  else Raise (ValueError (UnsupportedShape shape)).

End Shapes.

(** A value that cannot be iterated: [None], a boolean, a number. *)
Definition not_iterable (v : pyval) : bool :=
  match v with
  | PyNone | PyBool _ | PyInt _ | PyFloat _ => true
  | _ => false
  end.

(** The file's form of a nail. *)
Definition nail_value (c : pyval * pyval) : pyval := PyList [fst c; snd c].

End Vocabulary.

(* ================================================================== *)
(** * Properties of the generator *)
(* ================================================================== *)

Section GeneratorFacts.
Import Py Num Generator.
Local Open Scope string_scope.

(** ** In any float arithmetic *)

Section AnyArithmetic.

Context {F : Type} {FF : Float F}.

Lemma for_each_length {A B : Type} (body : A -> result B) (l : list A) (bs : list B) :
  for_each body l = Ok bs -> List.length bs = List.length l.
Proof.
  revert bs. induction l as [| a l IH]; intros bs H.
  - inversion H. reflexivity.
  - simpl in H. destruct (body a) as [b | e]; [| discriminate]. simpl in H.
    destruct (for_each body l) as [bs' | e]; [| discriminate].
    inversion H. simpl. f_equal. apply IH. reflexivity.
Qed.

Lemma range_length (n : Z) : List.length (range n) = Z.to_nat n.
Proof. unfold range. rewrite length_map, length_seq. reflexivity. Qed.

Lemma square_loop_length (k : nat) :
  forall current_pos spacing : F,
    List.length (square_loop k current_pos spacing) = k.
Proof. induction k as [| k IH]; intros; simpl; [| rewrite IH]; reflexivity. Qed.



Lemma generate_square_nails_ok_inv (num_nails : Z) (nails : list (F * F)) :
  generate_square_nails num_nails = Ok nails ->
  (4 <= num_nails)%Z /\
  exists spacing, nails = square_loop (Z.to_nat num_nails) zero spacing.
Proof.
  unfold generate_square_nails. destruct (Z.ltb_spec num_nails 4); [discriminate |].
  destruct (to_float num_nails) as [fn | e]; [| discriminate]. cbn [bind].
  destruct (truediv four fn) as [spacing | e]; [| discriminate]. cbn [bind].
  intro Hok. inversion Hok. split; [assumption | exists spacing; reflexivity].
Qed.


(** X16: [generate_circle_nails] has no guard of its own: without [main]
    in front of it, a count of zero or below gives the empty layout. *)
Remark generate_circle_nails_unguarded {L : Libm F} (num_nails : Z) :
  (num_nails <= 0)%Z -> generate_circle_nails (F := F) num_nails = Ok [].
Proof.
  intro H. unfold generate_circle_nails, range.
  replace (Z.to_nat num_nails) with 0%nat by lia. reflexivity.
Qed.

End AnyArithmetic.


End GeneratorFacts.

(** ** In exact arithmetic: rounding and remainder *)

Section ExactRounding.
Import Num.
Local Open Scope R_scope.

Lemma round_half_even_cases (t : R) :
  let f := Zfloor t in
  (t - IZR f < 1 / 2 /\ Exact.round_half_even t = f) \/
  (1 / 2 < t - IZR f /\ Exact.round_half_even t = (f + 1)%Z) \/
  (t - IZR f = 1 / 2 /\ Z.even f = true /\ Exact.round_half_even t = f) \/
  (t - IZR f = 1 / 2 /\ Z.even f = false /\ Exact.round_half_even t = (f + 1)%Z).
Proof.
  intro f. unfold Exact.round_half_even. fold f.
  destruct (Rlt_dec (t - IZR f) (1 / 2)) as [H1 | H1]; [left; auto |].
  destruct (Rlt_dec (1 / 2) (t - IZR f)) as [H2 | H2]; [right; left; auto |].
  assert (t - IZR f = 1 / 2) by lra.
  destruct (Z.even f) eqn:Ev; [right; right; left | right; right; right]; auto.
Qed.


Lemma round_half_even_le (t u : R) :
  t <= u -> (Exact.round_half_even t <= Exact.round_half_even u)%Z.
Proof.
  intro Htu.
  pose proof (Zfloor_le t u Htu) as Hf.
  pose proof (Zfloor_bound t) as Hbt. pose proof (Zfloor_bound u) as Hbu.
  destruct (Z.eq_dec (Zfloor t) (Zfloor u)) as [Heq | Hne].
  - destruct (round_half_even_cases t) as [[H1 E1] | [[H1 E1] | [[H1 [V1 E1]] | [H1 [V1 E1]]]]];
    destruct (round_half_even_cases u) as [[H2 E2] | [[H2 E2] | [[H2 [V2 E2]] | [H2 [V2 E2]]]]];
      rewrite E1, E2; rewrite Heq in *; try lia; try (exfalso; lra); congruence.
  - assert (Zfloor t + 1 <= Zfloor u)%Z by lia.
    assert (Exact.round_half_even t <= Zfloor t + 1)%Z.
    { destruct (round_half_even_cases t) as [[_ ->] | [[_ ->] | [[_ [_ ->]] | [_ [_ ->]]]]]; lia. }
    assert (Zfloor u <= Exact.round_half_even u)%Z.
    { destruct (round_half_even_cases u) as [[_ ->] | [[_ ->] | [[_ [_ ->]] | [_ [_ ->]]]]]; lia. }
    lia.
Qed.

(** Rounding commutes with adding an even integer. *)
Lemma round_half_even_add_even (t : R) (e : Z) :
  Z.even e = true ->
  Exact.round_half_even (t + IZR e) = (Exact.round_half_even t + e)%Z.
Proof.
  intro He. unfold Exact.round_half_even. rewrite Zfloor_addz, plus_IZR.
  replace (t + IZR e - (IZR (Zfloor t) + IZR e)) with (t - IZR (Zfloor t)) by ring.
  rewrite Z.even_add, He.
  destruct (Rlt_dec _ _); [reflexivity |]. destruct (Rlt_dec _ _); [lia |].
  destruct (Z.even (Zfloor t)); simpl; lia.
Qed.

(** Rounding is odd. *)
Lemma round_half_even_opp (t : R) :
  Exact.round_half_even (- t) = (- Exact.round_half_even t)%Z.
Proof.
  pose proof (Zfloor_bound t) as Hb.
  destruct (Req_dec_T (IZR (Zfloor t)) t) as [Hint | Hfrac].
  - rewrite <- Hint, <- opp_IZR, !Exact.round_half_even_IZR. reflexivity.
  - assert (Hfl : Zfloor (- t) = (- Zfloor t - 1)%Z).
    { apply Zfloor_eq. rewrite minus_IZR, opp_IZR. lra. }
    assert (Hd : - t - IZR (Zfloor (- t)) = 1 - (t - IZR (Zfloor t))).
    { rewrite Hfl, minus_IZR, opp_IZR. ring. }
    assert (Hev : Z.even (- Zfloor t - 1) = negb (Z.even (Zfloor t))).
    { rewrite Z.even_sub, Z.even_opp. simpl. destruct (Z.even (Zfloor t)); reflexivity. }
    destruct (round_half_even_cases t) as [[H1 E1] | [[H1 E1] | [[H1 [V1 E1]] | [H1 [V1 E1]]]]];
    destruct (round_half_even_cases (- t)) as [[H2 E2] | [[H2 E2] | [[H2 [V2 E2]] | [H2 [V2 E2]]]]];
      rewrite E1, E2, Hfl; rewrite ?Hd, ?Hfl, ?Hev, ?V1 in *;
      try lia; try (exfalso; lra); simpl in *; congruence.
Qed.


Lemma round6_le (x y : R) : x <= y -> Exact.round6 x <= Exact.round6 y.
Proof.
  intro H. unfold Exact.round6.
  assert (Hz : (Exact.round_half_even (x * 1000000) <= Exact.round_half_even (y * 1000000))%Z)
    by (apply round_half_even_le; lra).
  apply IZR_le in Hz. lra.
Qed.


Lemma round6_add_int (x : R) (z : Z) : Exact.round6 (x + IZR z) = Exact.round6 x + IZR z.
Proof.
  unfold Exact.round6.
  replace ((x + IZR z) * 1000000) with (x * 1000000 + IZR (z * 1000000))
    by (rewrite mult_IZR; ring).
  rewrite round_half_even_add_even.
  - rewrite plus_IZR, mult_IZR. field.
  - rewrite Z.even_mul. apply orb_true_r.
Qed.

Lemma round6_opp (x : R) : Exact.round6 (- x) = - Exact.round6 x.
Proof.
  unfold Exact.round6. replace (- x * 1000000) with (- (x * 1000000)) by ring.
  rewrite round_half_even_opp, opp_IZR. field.
Qed.



(** Below the divisor, the remainder is the argument. *)
Lemma py_mod_small (x : R) : 0 <= x < 4 -> Exact.py_mod x 4 = x.
Proof.
  intro H. unfold Exact.py_mod.
  replace (Zfloor (x / 4)) with 0%Z; [lra |].
  symmetry. apply Zfloor_eq. simpl. lra.
Qed.

End ExactRounding.

(** ** In exact arithmetic: the layouts *)

Section ExactLayouts.
Import Py Num Generator.
Local Open Scope R_scope.







(** *** The square *)


Lemma generate_square_nails_exact (count : Z) :
  (4 <= count)%Z ->
  generate_square_nails (F := R) count
  = Ok (square_loop (Z.to_nat count) 0 (4 / IZR count)).
Proof.
  intro Hc. unfold generate_square_nails, to_float, truediv.
  destruct (Z.ltb_spec count 4); [lia |]. cbn.
  unfold Exact.Reqb. destruct (Req_dec_T (IZR count) 0) as [H0 | _].
  - apply eq_IZR in H0. lia.
  - reflexivity.
Qed.




(** Rounding the point at [t] gives the point at the rounded [t]. *)
Lemma rounded_edge_point (t : R) :
  0 <= t <= 4 ->
  rounded (edge_point t) = segment_point (Exact.round6 t).
Proof.
  intros [H0 H4].
  assert (R1 : Exact.round6 1 = 1) by apply (Exact.round6_IZR 1).
  assert (R2 : Exact.round6 2 = 2) by apply (Exact.round6_IZR 2).
  assert (R3 : Exact.round6 3 = 3) by apply (Exact.round6_IZR 3).
  assert (R4 : Exact.round6 4 = 4) by apply (Exact.round6_IZR 4).
  assert (R0 : Exact.round6 0 = 0) by apply (Exact.round6_IZR 0).
  assert (Hsub1 : Exact.round6 (t - 1) = Exact.round6 t - 1).
  { replace (t - 1) with (t + IZR (-1)) by (simpl; lra).
    rewrite round6_add_int. simpl. lra. }
  assert (Hsub2 : Exact.round6 (1 - (t - 2)) = 3 - Exact.round6 t).
  { replace (1 - (t - 2)) with (- t + IZR 3) by (simpl; lra).
    rewrite round6_add_int, round6_opp. simpl. lra. }
  assert (Hsub3 : Exact.round6 (1 - (t - 3)) = 4 - Exact.round6 t).
  { replace (1 - (t - 3)) with (- t + IZR 4) by (simpl; lra).
    rewrite round6_add_int, round6_opp. simpl. lra. }
  unfold rounded, edge_point, segment_point. cbn. unfold Exact.Rleb.
  remember (Exact.round6 t) as q eqn:Eq.
  destruct (Rle_dec t 1) as [T1 | T1]; cbn; rewrite <- ?Eq.
  { assert (q <= 1) by (rewrite <- R1, Eq; apply round6_le, T1).
    assert (0 <= q) by (rewrite <- R0, Eq; apply round6_le, H0).
    rewrite R0.
    destruct (Rle_dec 1 q); cbn; [| reflexivity].
    destruct (Rle_dec 2 q); cbn; [exfalso; lra |]. f_equal; lra. }
  destruct (Rle_dec t 2) as [T2 | T2]; cbn; rewrite <- ?Eq.
  { assert (1 <= q) by (rewrite <- R1, Eq; apply round6_le; lra).
    assert (q <= 2) by (rewrite <- R2, Eq; apply round6_le, T2).
    rewrite R1, Hsub1.
    destruct (Rle_dec 1 q); cbn; [| exfalso; lra].
    destruct (Rle_dec 2 q); cbn; [| reflexivity].
    destruct (Rle_dec 3 q); cbn; [exfalso; lra |]. f_equal; lra. }
  destruct (Rle_dec t 3) as [T3 | T3]; cbn; rewrite <- ?Eq.
  { assert (2 <= q) by (rewrite <- R2, Eq; apply round6_le; lra).
    assert (q <= 3) by (rewrite <- R3, Eq; apply round6_le, T3).
    rewrite R1, Hsub2.
    destruct (Rle_dec 1 q); cbn; [| exfalso; lra].
    destruct (Rle_dec 2 q); cbn; [| exfalso; lra].
    destruct (Rle_dec 3 q); cbn; f_equal; lra. }
  assert (3 <= q) by (rewrite <- R3, Eq; apply round6_le; lra).
  assert (q <= 4) by (rewrite <- R4, Eq; apply round6_le, H4).
  rewrite R0, Hsub3.
  destruct (Rle_dec 1 q); cbn; [| exfalso; lra].
  destruct (Rle_dec 2 q); cbn; [| exfalso; lra].
  destruct (Rle_dec 3 q); cbn; [| exfalso; lra].
  f_equal; lra.
Qed.






End ExactLayouts.

(* ================================================================== *)
(** * Properties of the loader and the renderer *)
(* ================================================================== *)

Section LoaderFacts.
Import Py Visualizer FileFormat.
Local Open Scope string_scope.

Lemma first_bad_here {A : Type} (bad : A -> bool) (v : A) (l : list A) :
  bad v = true -> first_bad bad (v :: l) 0 v.
Proof.
  intro Hb. repeat split; [exact Hb |]. intros j w Hj. lia.
Qed.

Lemma first_bad_later {A : Type} (bad : A -> bool) (a v : A) (l : list A) (i : nat) :
  bad a = false -> first_bad bad l i v -> first_bad bad (a :: l) (S i) v.
Proof.
  intros Ha (Hn & Hb & Hbefore). repeat split; [exact Hn | exact Hb |].
  intros [| j] w Hj Hw.
  - simpl in Hw. congruence.
  - simpl in Hw. apply (Hbefore j w); [lia | exact Hw].
Qed.

Lemma first_bad_none {A : Type} (bad : A -> bool) (l : list A) (i : nat) (v : A) :
  forallb (fun a => negb (bad a)) l = true -> ~ first_bad bad l i v.
Proof.
  intros Hall (Hn & Hb & _).
  rewrite forallb_forall in Hall.
  apply nth_error_In in Hn. apply Hall in Hn. rewrite Hb in Hn. discriminate.
Qed.

(** ** Nails *)

Lemma chained_le_numeric (x : pyval) :
  numeric x = true -> chained_le 0 x 1 = Ok (in_unit x).
Proof.
  assert (E0 : SF2Prim (binary_normalize prec emax 0 0 false) = 0%float)
    by (vm_compute; reflexivity).
  assert (E1 : SF2Prim (binary_normalize prec emax 1 0 false) = 1%float)
    by (vm_compute; reflexivity).
  destruct x; try discriminate; intros _;
    unfold chained_le, int_le_val, val_le_int, bind, in_unit.
  - destruct b; reflexivity.
  - destruct (0 <=? z)%Z; reflexivity.
  - rewrite E0, E1. destruct (PrimFloat.leb 0 f); reflexivity.
Qed.

Lemma in_unit_numeric (x : pyval) : in_unit x = true -> numeric x = true.
Proof. destruct x; simpl; congruence. Qed.

Lemma check_nail_valid (i : nat) (v : pyval) :
  valid_nail v = true -> check_nail i v = Ok tt.
Proof.
  destruct v as [| | | | | l |]; simpl; try discriminate.
  destruct l as [| x [| y [| z l]]]; try discriminate.
  intro H. apply andb_prop in H. destruct H as [Hx Hy].
  unfold check_nail.
  rewrite (chained_le_numeric x (in_unit_numeric x Hx)), Hx. simpl.
  rewrite (chained_le_numeric y (in_unit_numeric y Hy)), Hy. reflexivity.
Qed.

Lemma check_nail_not_a_pair (i : nat) (v : pyval) :
  not_a_pair v = true -> check_nail i v = Raise (ValueError (NailNotPair i)).
Proof.
  destruct v as [| | | | | l |]; simpl; try reflexivity.
  destruct l as [| x [| y [| z l]]]; try reflexivity. discriminate.
Qed.

Lemma check_nail_outside (i : nat) (v : pyval) :
  numbers_outside_unit v = true ->
  check_nail i v = Raise (ValueError (NailOutsideUnitSquare i)).
Proof.
  destruct v as [| | | | | l |]; simpl; try discriminate.
  destruct l as [| x [| y [| z l]]]; try discriminate.
  intro H. apply andb_prop in H. destruct H as [H Hout].
  apply andb_prop in H. destruct H as [Hx Hy].
  unfold check_nail. rewrite (chained_le_numeric x Hx). simpl.
  destruct (in_unit x) eqn:Ex.
  - rewrite (chained_le_numeric y Hy). simpl.
    destruct (in_unit y); [discriminate | reflexivity].
  - reflexivity.
Qed.

Lemma check_nails_valid (ns : list pyval) :
  forallb valid_nail ns = true -> forall i, check_nails i ns = Ok tt.
Proof.
  induction ns as [| v ns IH]; intros H i; [reflexivity |].
  simpl in H. apply andb_prop in H. destruct H as [Hv Hns].
  simpl. rewrite (check_nail_valid i v Hv). simpl. apply IH, Hns.
Qed.

(** The scan of [nails] stops at the first entry that is not a pair, or
    that is a pair of numbers outside the unit square, with its index. *)
Lemma check_nails_first_defect (ns : list pyval) :
  forall i0 i v,
    nth_error ns i = Some v ->
    (forall j w, (j < i)%nat -> nth_error ns j = Some w -> valid_nail w = true) ->
    (not_a_pair v = true ->
       check_nails i0 ns = Raise (ValueError (NailNotPair (i0 + i)))) /\
    (numbers_outside_unit v = true ->
       check_nails i0 ns = Raise (ValueError (NailOutsideUnitSquare (i0 + i)))).
Proof.
  induction ns as [| a ns IH]; intros i0 i v Hn Hbefore.
  - destruct i; discriminate.
  - destruct i as [| i].
    + simpl in Hn. inversion Hn. subst a. rewrite Nat.add_0_r. split; intro Hd; simpl.
      * rewrite (check_nail_not_a_pair i0 v Hd). reflexivity.
      * rewrite (check_nail_outside i0 v Hd). reflexivity.
    + simpl in Hn.
      assert (Ha : valid_nail a = true) by (apply (Hbefore 0%nat a); [lia | reflexivity]).
      assert (Hb : forall j w, (j < i)%nat -> nth_error ns j = Some w -> valid_nail w = true).
      { intros j w Hj Hw. apply (Hbefore (S j) w); [lia | exact Hw]. }
      destruct (IH (S i0) i v Hn Hb) as [IH1 IH2].
      replace (i0 + S i)%nat with (S i0 + i)%nat by lia.
      split; intro Hd; simpl; rewrite (check_nail_valid i0 a Ha); simpl; auto.
Qed.

(** ** Thread *)

Lemma check_thread_point_spec (m : Z) (i : nat) (v : pyval) :
  check_thread_point m i v =
  if valid_thread_point (m + 1) v then Ok tt
  else Raise (ValueError (ThreadPointInvalid i v m)).
Proof.
  unfold check_thread_point, valid_thread_point.
  replace (m + 1 - 1)%Z with m by lia.
  destruct v; simpl; try reflexivity.
  - destruct ((0 <=? Z_of_bool b)%Z && (Z_of_bool b <=? m)%Z); reflexivity.
  - destruct ((0 <=? z)%Z && (z <=? m)%Z); reflexivity.
Qed.

(** The scan of [thread] either accepts every entry, or stops at the
    first entry that is not a valid index, with its index and value. *)
Lemma check_thread_spec (m : Z) (ts : list pyval) :
  forall i0,
    (check_thread m i0 ts = Ok tt /\ forallb (valid_thread_point (m + 1)) ts = true) \/
    (exists i v,
        check_thread m i0 ts = Raise (ValueError (ThreadPointInvalid (i0 + i) v m)) /\
        first_bad (fun w => negb (valid_thread_point (m + 1) w)) ts i v).
Proof.
  induction ts as [| a ts IH]; intro i0.
  - left. split; reflexivity.
  - simpl. rewrite check_thread_point_spec.
    destruct (valid_thread_point (m + 1) a) eqn:Ea; simpl.
    + destruct (IH (S i0)) as [[Hok Hall] | (i & v & Hr & Hf)].
      * left. split; assumption.
      * right. exists (S i), v. split.
        -- rewrite Hr. do 3 f_equal. lia.
        -- apply first_bad_later; [rewrite Ea; reflexivity | exact Hf].
    + right. exists 0%nat, a. split.
      * rewrite Nat.add_0_r. reflexivity.
      * apply first_bad_here. rewrite Ea. reflexivity.
Qed.

Lemma first_bad_unique {A : Type} (bad : A -> bool) (l : list A) (i j : nat) (v w : A) :
  first_bad bad l i v -> first_bad bad l j w -> i = j /\ v = w.
Proof.
  intros (Hn1 & Hb1 & Hl1) (Hn2 & Hb2 & Hl2).
  assert (i = j).
  { destruct (Nat.lt_trichotomy i j) as [H | [H | H]]; [| exact H |].
    - specialize (Hl2 i v H Hn1). congruence.
    - specialize (Hl1 j w H Hn2). congruence. }
  subst j. split; [reflexivity | congruence].
Qed.

(** ** Containers *)

Lemma chars_length (s : string) : List.length (chars s) = String.length s.
Proof. induction s as [| c s IH]; simpl; congruence. Qed.

Lemma py_iter_len (v : pyval) (l : list pyval) :
  py_iter v = Ok l -> py_len v = Ok (Z.of_nat (List.length l)).
Proof.
  destruct v; simpl; try discriminate; intro H; inversion H; subst.
  - rewrite chars_length. reflexivity.
  - reflexivity.
  - rewrite length_map. reflexivity.
Qed.

Lemma lookup_contains (k : pyval) (items : list (pykey * pyval)) (v : pyval) :
  lookup k items = Some v ->
  existsb (fun kv => py_eqb (of_key (fst kv)) k) items = true.
Proof.
  induction items as [| [k' v'] items IH]; simpl; [discriminate |].
  destruct (py_eqb (of_key k') k); simpl; [reflexivity | exact IH].
Qed.

(** A mapping with both keys: the loader reaches the two scans. *)
Lemma load_body_mapping (items : list (pykey * pyval)) (nails thread : pyval)
    (ns : list pyval) :
  lookup (PyStr "nails") items = Some nails ->
  lookup (PyStr "thread") items = Some thread ->
  py_iter nails = Ok ns ->
  load_body (Parsed (PyDict items)) =
  bind (check_nails 0 ns) (fun _ =>
  bind (py_iter thread) (fun thread_list =>
  bind (check_thread (Z.of_nat (List.length ns) - 1) 0 thread_list) (fun _ =>
  Ok (nails, thread)))).
Proof.
  intros Hn Ht Hi. unfold load_body, py_contains_str, py_getitem.
  rewrite (lookup_contains _ _ Hn), (lookup_contains _ _ Ht).
  cbn [bind negb]. rewrite Hn, Ht. cbn [bind]. rewrite Hi. cbn [bind].
  destruct (check_nails 0 ns); cbn [bind]; [| reflexivity].
  rewrite (py_iter_len _ Hi). reflexivity.
Qed.

Lemma py_iter_raises (v : pyval) (e : exn) : py_iter v = Raise e -> e = TypeError.
Proof. destruct v; simpl; intro H; inversion H; reflexivity. Qed.

(** C6: for a file whose nails all validate, the loader fails with the
    invalid-thread-point error carrying index [i] and value [v] exactly
    when entry [i] of [thread] is [v] and is the first entry that is not
    an integer within [0, len(nails) - 1]; the bound it reports is
    [len(nails) - 1].  The nails are scanned before the thread: a first
    entry of [nails] that is not a pair, or that is a pair of numbers
    outside the unit square, is reported whatever [thread] holds.  With
    three nails, [thread: [0, 5]] is refused at index 1 with value 5. *)
Theorem load_reports_first_invalid_thread_point
    (file_path : string) (items : list (pykey * pyval))
    (nails thread : pyval) (ns : list pyval) :
  lookup (PyStr "nails") items = Some nails ->
  lookup (PyStr "thread") items = Some thread ->
  py_iter nails = Ok ns ->
  let loaded := load_thread_art file_path (Parsed (PyDict items)) in
  let len_nails := Z.of_nat (List.length ns) in
  (forallb valid_nail ns = true ->
   forall i v m,
     loaded = Exits 1 (MsgErrorInFileFormat (ThreadPointInvalid i v m)) <->
     (m = (len_nails - 1)%Z /\
      exists ts, py_iter thread = Ok ts /\
                 first_bad (fun w => negb (valid_thread_point len_nails w)) ts i v)) /\
  (forall i v,
     nth_error ns i = Some v ->
     (forall j w, (j < i)%nat -> nth_error ns j = Some w -> valid_nail w = true) ->
     (not_a_pair v = true ->
        loaded = Exits 1 (MsgErrorInFileFormat (NailNotPair i))) /\
     (numbers_outside_unit v = true ->
        loaded = Exits 1 (MsgErrorInFileFormat (NailOutsideUnitSquare i)))) /\
  (forallb valid_nail ns = true ->
   List.length ns = 3%nat ->
   thread = PyList [PyInt 0; PyInt 5] ->
   loaded = Exits 1 (MsgErrorInFileFormat (ThreadPointInvalid 1 (PyInt 5) 2))).
Proof.
  intros Hn Ht Hi loaded len_nails.
  assert (Hbody := load_body_mapping items Hn Ht Hi).
  assert (Hthread : forallb valid_nail ns = true ->
          forall i v m,
            loaded = Exits 1 (MsgErrorInFileFormat (ThreadPointInvalid i v m)) <->
            (m = (len_nails - 1)%Z /\
             exists ts, py_iter thread = Ok ts /\
               first_bad (fun w => negb (valid_thread_point len_nails w)) ts i v)).
  { intros Hvalid i v m. subst loaded. unfold load_thread_art.
    rewrite Hbody, (check_nails_valid ns Hvalid 0). cbn [bind].
    destruct (py_iter thread) as [ts | e] eqn:Eit; cbn [bind].
    - destruct (check_thread_spec (len_nails - 1) ts 0)
        as [[Hok Hall] | (i' & v' & Hr & Hf)];
        replace (len_nails - 1 + 1)%Z with len_nails in * by lia;
        fold len_nails.
      + rewrite Hok. cbn [bind]. split; [discriminate |].
        intros (_ & ts' & Hts' & Hbad). inversion Hts'; subst ts'.
        exfalso. revert Hbad. apply first_bad_none.
        rewrite forallb_forall in Hall. apply forallb_forall.
        intros x Hx. rewrite (Hall x Hx). reflexivity.
      + rewrite Hr. cbn [bind]. simpl in Hf |- *. split.
        * intro H. inversion H; subst. split; [reflexivity |].
          exists ts. split; [reflexivity | exact Hf].
        * intros (Hm & ts' & Hts' & Hbad). inversion Hts'; subst ts'.
          destruct (first_bad_unique Hf Hbad) as [-> ->]. subst m. reflexivity.
    - apply py_iter_raises in Eit. subst e. split; [discriminate |].
      intros (_ & ts & Hts & _). discriminate. }
  split; [exact Hthread | split].
  - intros i v Hv Hbefore.
    destruct (check_nails_first_defect ns 0 Hv Hbefore) as [H1 H2].
    subst loaded. unfold load_thread_art. rewrite Hbody.
    split; intro Hd; [rewrite (H1 Hd) | rewrite (H2 Hd)]; reflexivity.
  - intros Hvalid Hlen ->.
    apply (Hthread Hvalid). subst len_nails. rewrite Hlen. split; [reflexivity |].
    exists [PyInt 0; PyInt 5]. split; [reflexivity |].
    repeat split.
    intros [| [| j]] w Hj Hw; [| lia | lia].
    inversion Hw. reflexivity.
Qed.

(** Three nails and [thread: [0, 5]]. *)
Lemma load_reports_first_invalid_thread_point_witness :
  load_thread_art "art.yml"
    (Parsed (document (PyList [point 0 0; point 1 0.5; point 0.25 1])
                      (PyList [PyInt 0; PyInt 5])))
  = Exits 1 (MsgErrorInFileFormat (ThreadPointInvalid 1 (PyInt 5) 2)).
Proof.
  apply (load_reports_first_invalid_thread_point "art.yml"
           [(KStr "nails", PyList [point 0 0; point 1 0.5; point 0.25 1]);
            (KStr "thread", PyList [PyInt 0; PyInt 5])]
           (nails := PyList [point 0 0; point 1 0.5; point 0.25 1])
           (thread := PyList [PyInt 0; PyInt 5])
           (ns := [point 0 0; point 1 0.5; point 0.25 1])
           eq_refl eq_refl eq_refl);
    reflexivity.
Defined.

(** ** What a successful load guarantees *)

Lemma bind_ok {A B : Type} (r : result A) (k : A -> result B) (b : B) :
  bind r k = Ok b -> exists a, r = Ok a /\ k a = Ok b.
Proof.
  destruct r as [a | e]; simpl; [| discriminate]. intro H. exists a. auto.
Qed.

Lemma check_nail_ok_inv (i : nat) (v : pyval) : check_nail i v = Ok tt -> is_pair v.
Proof.
  destruct v as [| | | | | l |]; simpl; try discriminate.
  destruct l as [| x [| y [| z l]]]; try discriminate.
  intros _. exists x, y. reflexivity.
Qed.

Lemma check_nails_ok_inv (ns : list pyval) :
  forall i, check_nails i ns = Ok tt -> Forall is_pair ns.
Proof.
  induction ns as [| v ns IH]; intros i H; [constructor |].
  simpl in H. apply bind_ok in H. destruct H as ([] & Hv & Hrest).
  constructor; [exact (check_nail_ok_inv i v Hv) | exact (IH (S i) Hrest)].
Qed.

Lemma check_thread_ok_inv (m : Z) (ts : list pyval) (i : nat) :
  check_thread m i ts = Ok tt -> forallb (valid_thread_point (m + 1)) ts = true.
Proof.
  intro H. destruct (check_thread_spec m ts i) as [[_ Hall] | (j & v & Hr & _)];
    [exact Hall | congruence].
Qed.

Lemma load_returns_inv (file_path : string) (st : file_state) (nails thread : pyval) :
  load_thread_art file_path st = Returns (nails, thread) ->
  exists ns ts,
    py_iter nails = Ok ns /\ Forall is_pair ns /\
    py_iter thread = Ok ts /\
    forallb (valid_thread_point (Z.of_nat (List.length ns))) ts = true.
Proof.
  unfold load_thread_art. destruct (load_body st) as [r | e] eqn:Eb;
    [| destruct e; discriminate].
  intro H. inversion H; subst r. clear H.
  destruct st as [| | | data]; try discriminate. unfold load_body in Eb.
  apply bind_ok in Eb. destruct Eb as (has_nails & _ & Eb).
  apply bind_ok in Eb. destruct Eb as (has_both & _ & Eb).
  destruct (negb has_both); [discriminate |].
  apply bind_ok in Eb. destruct Eb as (nails' & _ & Eb).
  apply bind_ok in Eb. destruct Eb as (thread' & _ & Eb).
  apply bind_ok in Eb. destruct Eb as (ns & Hin & Eb).
  apply bind_ok in Eb. destruct Eb as ([] & Hcn & Eb).
  apply bind_ok in Eb. destruct Eb as (len_nails & Hlen & Eb).
  apply bind_ok in Eb. destruct Eb as (ts & Hit & Eb).
  apply bind_ok in Eb. destruct Eb as ([] & Hct & Eb).
  inversion Eb; subst nails' thread'. clear Eb.
  rewrite (py_iter_len _ Hin) in Hlen. inversion Hlen; subst len_nails.
  exists ns, ts. repeat split; try assumption.
  - exact (check_nails_ok_inv ns 0 Hcn).
  - apply check_thread_ok_inv in Hct.
    replace (Z.of_nat (List.length ns) - 1 + 1)%Z with (Z.of_nat (List.length ns)) in Hct by lia.
    exact Hct.
Qed.

(** C9, as amended: a successful load returns a non-empty [nails]
    whenever the thread it returns has an entry (every entry indexes a
    nail); nothing else makes [nails] non-empty. *)
Theorem loaded_nails_nonempty_when_thread_nonempty
    (file_path : string) (st : file_state) (nails thread : pyval) (ts : list pyval) :
  load_thread_art file_path st = Returns (nails, thread) ->
  py_iter thread = Ok ts ->
  ts <> [] ->
  exists n, py_len nails = Ok n /\ (0 < n)%Z.
Proof.
  intros Hload Hts Hne.
  destruct (load_returns_inv _ _ Hload) as (ns & ts' & Hin & _ & Hit & Hvalid).
  rewrite Hts in Hit. inversion Hit; subst ts'. clear Hit.
  exists (Z.of_nat (List.length ns)). split; [exact (py_iter_len _ Hin) |].
  destruct ts as [| t ts]; [congruence |].
  simpl in Hvalid. apply andb_prop in Hvalid. destruct Hvalid as [Ht _].
  destruct t; simpl in Ht; try discriminate;
    apply andb_prop in Ht; destruct Ht as [H0 H1];
    apply Z.leb_le in H0, H1; lia.
Qed.

(** Two nails and [thread: [1, 0]]. *)
Lemma loaded_nails_nonempty_when_thread_nonempty_witness :
  exists n, py_len (PyList [point 0 0; point 1 1]) = Ok n /\ (0 < n)%Z.
Proof.
  apply (loaded_nails_nonempty_when_thread_nonempty "art.yml"
           (Parsed (document (PyList [point 0 0; point 1 1]) (PyList [PyInt 1; PyInt 0])))
           (nails := PyList [point 0 0; point 1 1])
           (thread := PyList [PyInt 1; PyInt 0])
           (ts := [PyInt 1; PyInt 0]) eq_refl eq_refl).
  discriminate.
Defined.

(** C9 fails as stated: a file with [nails: []] and [thread: []] loads,
    and the nails it returns are empty. *)
Lemma load_accepts_empty_nails :
  load_thread_art "art.yml" (Parsed (document (PyList []) (PyList [])))
    = Returns (PyList [], PyList []) /\
  py_len (PyList []) = Ok 0%Z.
Proof. split; reflexivity. Qed.

(** C5: the code misses the claim on an entry of [nails] whose
    coordinates are not numbers.  Such an entry is not a two-element
    numeric sequence, yet no invalid-nail error is reported:
    [0 <= x] raises a [TypeError], which no [except] clause catches. *)
Theorem load_non_numeric_nail_uncaught (file_path : string) :
  load_thread_art file_path
    (Parsed (document (PyList [PyList [PyStr "a"; PyStr "b"]]) (PyList [])))
  = Uncaught TypeError.
Proof. reflexivity. Qed.

(** The validation does cite the entry when its coordinates are numbers:
    a coordinate 1.5 in the second entry is reported with index 1. *)
Example load_coordinate_out_of_range :
  load_thread_art "art.yml"
    (Parsed (document (PyList [point 0.5 0.5; point 0.25 1.5]) (PyList [])))
  = Exits 1 (MsgErrorInFileFormat (NailOutsideUnitSquare 1)).
Proof. reflexivity. Qed.

(** C7: the code misses the claim on a document that is not a mapping.
    For an empty file [yaml.safe_load] returns [None], and
    ['nails' not in data] raises a [TypeError] that no [except] clause
    catches: the exception leaves [load_thread_art] and [main]. *)
Theorem load_non_mapping_uncaught (file_path : string) :
  load_thread_art file_path (Parsed PyNone) = Uncaught TypeError /\
  Visualizer.main file_path (Parsed PyNone) = Uncaught TypeError /\
  load_thread_art file_path (Parsed (PyInt 42)) = Uncaught TypeError /\
  load_thread_art file_path (Parsed (PyList [PyStr "nails"; PyStr "thread"]))
    = Uncaught TypeError.
Proof. repeat split. Qed.

Lemma lookup_absent (k : pyval) (items : list (pykey * pyval)) :
  lookup k items = None ->
  existsb (fun kv => py_eqb (of_key (fst kv)) k) items = false.
Proof.
  induction items as [| [k' v'] items IH]; simpl; [reflexivity |].
  destruct (py_eqb (of_key k') k); simpl; [discriminate | exact IH].
Qed.

(** X15: the failures the loader does handle: text that does not parse,
    a missing file, and a mapping without one of the two keys end with a
    diagnostic and status 1. *)
Lemma load_handled_failures (file_path : string) :
  load_thread_art file_path Unparsable = Exits 1 MsgErrorParsingYAML /\
  load_thread_art file_path Missing = Exits 1 (MsgFileNotFound file_path) /\
  forall items,
    lookup (PyStr "nails") items = None \/ lookup (PyStr "thread") items = None ->
    load_thread_art file_path (Parsed (PyDict items))
    = Exits 1 (MsgErrorInFileFormat MissingKeys).
Proof.
  repeat split. intros items H. unfold load_thread_art, load_body, py_contains_str.
  destruct H as [H | H]; rewrite (lookup_absent _ _ H); cbn [bind].
  - reflexivity.
  - destruct (existsb _ items); reflexivity.
Qed.

(** ** The renderer's accesses *)













End LoaderFacts.

(* ================================================================== *)
(** * Further properties of the generator *)
(* ================================================================== *)

Section GeneratorFile.
Import Py Num Generator Vocabulary.
Local Open Scope string_scope.

Lemma enumerate_from_fst {A : Type} (l : list A) :
  forall k, map fst (enumerate_from k l) = seq k (List.length l).
Proof. induction l as [| a l IH]; intro k; simpl; [| rewrite IH]; reflexivity. Qed.

Lemma enumerate_from_snd {A : Type} (l : list A) :
  forall k, map snd (enumerate_from k l) = l.
Proof. induction l as [| a l IH]; intro k; simpl; [| rewrite IH]; reflexivity. Qed.

Lemma enumerate_from_length {A : Type} (l : list A) :
  forall k, List.length (enumerate_from k l) = List.length l.
Proof. induction l as [| a l IH]; intro k; simpl; [| rewrite IH]; reflexivity. Qed.


Section AnyFloat.

Context {F : Type} {FF : Float F}.





Lemma generate_circle_nails_length {L : Libm F} (num_nails : Z) (nails : list (F * F)) :
  generate_circle_nails num_nails = Ok nails ->
  List.length nails = Z.to_nat num_nails.
Proof.
  intro H. unfold generate_circle_nails in H.
  rewrite (for_each_length _ _ H). apply range_length.
Qed.

Lemma generate_square_nails_length (num_nails : Z) (nails : list (F * F)) :
  generate_square_nails num_nails = Ok nails ->
  (4 <= num_nails)%Z /\ List.length nails = Z.to_nat num_nails.
Proof.
  intro H. destruct (generate_square_nails_ok_inv _ H) as (Hge & spacing & ->).
  split; [exact Hge | apply square_loop_length].
Qed.

(** X1: when [create_thread_art_file] writes a file, the file has one row
    per generated nail, in generation order, annotated with the indices
    0, 1, 2, ... in sequence; its thread is empty and its header repeats
    the count and the shape as given.  Nothing is written unless the
    layout is generated and the path is writable. *)
Theorem written_file_lists_every_nail {L : Libm F}
    (num_nails : Z) (shape : string) (writable : bool) (content : yaml_content) :
  create_thread_art_file num_nails shape writable = Returns content ->
  writable = true /\
  exists nails,
    layout_for num_nails shape = Ok nails /\
    map snd (nail_rows content) = nails /\
    map fst (nail_rows content) = seq 0 (List.length nails) /\
    thread_row content = [] /\
    header_num_nails content = num_nails /\
    header_shape content = shape.
Proof.
  unfold create_thread_art_file. fold (layout_for num_nails shape).
  destruct (layout_for num_nails shape) as [nails | e]; [| discriminate].
  destruct writable; [| discriminate].
  intro H. inversion H. subst content. clear H. split; [reflexivity |].
  exists nails. cbn [nail_rows thread_row header_num_nails header_shape].
  rewrite enumerate_from_snd, enumerate_from_fst. repeat split.
Qed.

Lemma eqb_choice (shape : string) :
  (String.eqb shape "circle" || String.eqb shape "square") = true ->
  shape = "circle" \/ shape = "square".
Proof.
  intro H. apply orb_prop in H. destruct H as [H | H]; apply String.eqb_eq in H; auto.
Qed.

(** X2: [main] writes a file only for parameters that pass its guards: a
    shape among the two choices, a positive count, at least 4 for the
    square, and a writable path; the file then has exactly [num_nails]
    rows and an empty thread. *)
Theorem main_writes_only_valid_layouts {L : Libm F}
    (num_nails : Z) (shape : string) (writable : bool) (content : yaml_content) :
  Generator.main num_nails shape writable = Returns content ->
  (shape = "circle" \/ shape = "square" /\ (4 <= num_nails)%Z) /\
  (0 < num_nails)%Z /\
  writable = true /\
  List.length (nail_rows content) = Z.to_nat num_nails /\
  thread_row content = [].
Proof.
  unfold Generator.main.
  destruct (String.eqb shape "circle" || String.eqb shape "square") eqn:Echoice;
    [| discriminate]. cbn [negb].
  apply eqb_choice in Echoice.
  destruct (Z.leb_spec num_nails 0) as [| Hpos]; [discriminate |].
  destruct (String.eqb (lower shape) "square" && (num_nails <? 4)%Z) eqn:Eguard;
    [discriminate |].
  destruct (create_thread_art_file num_nails shape writable) as [c | |e] eqn:Ecreate;
    [| discriminate | destruct e; discriminate].
  intro H. inversion H. subst c. clear H.
  unfold create_thread_art_file in Ecreate.
  destruct Echoice as [-> | ->]; cbn in Ecreate, Eguard.
  - destruct (generate_circle_nails num_nails) as [nails |] eqn:Eg; [| discriminate].
    destruct writable; [| discriminate]. inversion Ecreate. subst content.
    cbn [nail_rows thread_row].
    repeat split; auto.
    rewrite enumerate_from_length. exact (generate_circle_nails_length _ Eg).
  - destruct (generate_square_nails num_nails) as [nails |] eqn:Eg; [| discriminate].
    destruct writable; [| discriminate]. inversion Ecreate. subst content.
    cbn [nail_rows thread_row].
    destruct (generate_square_nails_length _ Eg) as [Hge Hlen].
    repeat split; auto.
    rewrite enumerate_from_length. exact Hlen.
Qed.


End AnyFloat.

(** In exact arithmetic, the layouts the two calls return. *)
Lemma create_square_file_exact (num_nails : Z) :
  (4 <= num_nails)%Z ->
  create_thread_art_file (F := R) num_nails "square" true
  = Returns {| header_num_nails := num_nails;
               header_shape := "square";
               nail_rows := enumerate_from 0
                              (square_loop (Z.to_nat num_nails) 0%R (4 / IZR num_nails)%R);
               thread_row := [] |}.
Proof.
  intro H. unfold create_thread_art_file. cbn [lower lower_ascii].
  change (String.eqb (lower "square") "circle") with false.
  change (String.eqb (lower "square") "square") with true.
  cbn iota. rewrite (generate_square_nails_exact H). reflexivity.
Qed.

(** A square of eight nails. *)
Lemma written_file_lists_every_nail_witness :
  exists nails,
    layout_for (F := R) 8 "square" = Ok nails /\
    map snd (enumerate_from 0 (square_loop (Z.to_nat 8) 0%R (4 / IZR 8)%R)) = nails /\
    map fst (enumerate_from 0 (square_loop (Z.to_nat 8) 0%R (4 / IZR 8)%R))
    = seq 0 (List.length nails).
Proof.
  destruct (written_file_lists_every_nail (F := R) 8 "square" true
              (@create_square_file_exact 8%Z ltac:(lia)))
    as (_ & nails & H1 & H2 & H3 & _).
  exists nails. repeat split; assumption.
Defined.

(** A square of eight nails from the command line. *)
Lemma main_writes_only_valid_layouts_witness :
  List.length (enumerate_from 0 (square_loop (Z.to_nat 8) 0%R (4 / IZR 8)%R)) = 8%nat.
Proof.
  assert (Hmain : Generator.main (F := R) 8 "square" true
                  = Returns {| header_num_nails := 8;
                               header_shape := "square";
                               nail_rows := enumerate_from 0
                                 (square_loop (Z.to_nat 8) 0%R (4 / IZR 8)%R);
                               thread_row := [] |}).
  { unfold Generator.main.
    change (String.eqb "square" "circle" || String.eqb "square" "square") with true.
    change (String.eqb (lower "square") "square") with true.
    cbn [negb andb Z.leb Z.ltb Z.compare Pos.compare Pos.compare_cont].
    rewrite (@create_square_file_exact 8%Z ltac:(lia)). reflexivity. }
  exact (proj1 (proj2 (proj2 (proj2
           (main_writes_only_valid_layouts (F := R) 8 "square" true Hmain))))).
Defined.

End GeneratorFile.

(** ** The generated layouts *)

Section MoreLayouts.
Import Py Num Generator Vocabulary.
Local Open Scope R_scope.

(** X4: the square layout always starts at the corner (0, 0): nail 0 is
    exactly (0.0, 0.0) whenever the call returns, in binary64 as in exact
    arithmetic. *)
Theorem square_starts_at_origin (num_nails : Z) :
  (forall nails : list (float * float),
     generate_square_nails num_nails = Ok nails ->
     nth_error nails 0 = Some (0%float, 0%float)) /\
  (forall nails : list (R * R),
     generate_square_nails num_nails = Ok nails ->
     nth_error nails 0 = Some (0, 0)).
Proof.
  split; intros nails Hg;
    destruct (generate_square_nails_ok_inv _ Hg) as (Hge & spacing & ->);
    destruct (Z.to_nat num_nails) as [| k] eqn:Ek; try lia;
    cbn [square_loop nth_error].
  - reflexivity.
  - f_equal. cbn [mod_ four zero Exact.exact].
    rewrite py_mod_small by lra.
    rewrite (rounded_edge_point (t := 0)) by lra.
    rewrite (Exact.round6_IZR 0).
    unfold segment_point. cbn. unfold Exact.Rleb.
    destruct (Rle_dec 1 0); [exfalso; lra | reflexivity].
Qed.








(** *** The circle *)







(** *** Rounding *)





(** *** Distinct nails *)




(** *** The command line *)



(** A count of minus two. *)
Lemma generate_circle_nails_unguarded_witness :
  generate_circle_nails (F := R) (-2) = Ok [].
Proof. apply (@generate_circle_nails_unguarded R _ _ (-2)%Z). lia. Defined.

End MoreLayouts.

(* ================================================================== *)
(** * Further properties of the loader and the renderer *)
(* ================================================================== *)

Section MoreLoaderFacts.
Import Py Visualizer FileFormat Vocabulary.
Local Open Scope string_scope.

Lemma chained_le_true (x : pyval) : chained_le 0 x 1 = Ok true -> in_unit x = true.
Proof.
  intro H. destruct (numeric x) eqn:En.
  - rewrite (chained_le_numeric x En) in H. inversion H. reflexivity.
  - destruct x; try discriminate En; discriminate H.
Qed.

Lemma check_nail_ok_valid (i : nat) (v : pyval) :
  check_nail i v = Ok tt -> valid_nail v = true.
Proof.
  destruct v as [| | | | | l |]; simpl; try discriminate.
  destruct l as [| x [| y [| z l]]]; try discriminate.
  intro H. apply bind_ok in H. destruct H as (in_x & Hx & H).
  apply bind_ok in H. destruct H as (in_xy & Hy & H).
  destruct in_xy; [| discriminate]. destruct in_x; [| discriminate].
  rewrite (chained_le_true x Hx), (chained_le_true y Hy). reflexivity.
Qed.

Lemma check_nails_ok_valid (ns : list pyval) :
  forall i, check_nails i ns = Ok tt -> forallb valid_nail ns = true.
Proof.
  induction ns as [| v ns IH]; intros i H; [reflexivity |].
  simpl in H. apply bind_ok in H. destruct H as ([] & Hv & Hrest).
  simpl. rewrite (check_nail_ok_valid i v Hv), (IH (S i) Hrest). reflexivity.
Qed.

(** A mapping with both keys: the loader reaches the iteration of
    [nails]. *)
Lemma load_body_with_keys (items : list (pykey * pyval)) (nails thread : pyval) :
  lookup (PyStr "nails") items = Some nails ->
  lookup (PyStr "thread") items = Some thread ->
  load_body (Parsed (PyDict items)) =
  bind (py_iter nails) (fun ns =>
  bind (check_nails 0 ns) (fun _ =>
  bind (py_iter thread) (fun ts =>
  bind (check_thread (Z.of_nat (List.length ns) - 1) 0 ts) (fun _ =>
  Ok (nails, thread))))).
Proof.
  intros Hn Ht. destruct (py_iter nails) as [ns | e] eqn:Hi.
  - rewrite (load_body_mapping items Hn Ht Hi). reflexivity.
  - unfold load_body, py_contains_str, py_getitem.
    rewrite (lookup_contains _ _ Hn), (lookup_contains _ _ Ht).
    cbn [bind negb]. rewrite Hn, Ht. cbn [bind]. rewrite Hi. reflexivity.
Qed.

(** X12: for a mapping that has both keys, the loader returns exactly
    when every entry of [nails] is a pair of numbers within [0, 1] and
    every entry of [thread] is an integer within [0, len(nails) - 1]; it
    then returns the two values of the mapping unchanged, whatever other
    keys the mapping holds. *)
Theorem load_accepts_exactly_valid_files
    (file_path : string) (items : list (pykey * pyval))
    (nails thread : pyval) (r : pyval * pyval) :
  lookup (PyStr "nails") items = Some nails ->
  lookup (PyStr "thread") items = Some thread ->
  (load_thread_art file_path (Parsed (PyDict items)) = Returns r <->
   r = (nails, thread) /\
   exists ns ts,
     py_iter nails = Ok ns /\ forallb valid_nail ns = true /\
     py_iter thread = Ok ts /\
     forallb (valid_thread_point (Z.of_nat (List.length ns))) ts = true).
Proof.
  intros Hn Ht. unfold load_thread_art. rewrite (load_body_with_keys items Hn Ht).
  split.
  - destruct (py_iter nails) as [ns | e] eqn:Hi; cbn [bind];
      [| destruct e; discriminate].
    destruct (check_nails 0 ns) as [[] | e] eqn:Hcn; cbn [bind];
      [| destruct e; discriminate].
    destruct (py_iter thread) as [ts | e] eqn:Hit; cbn [bind];
      [| destruct e; discriminate].
    destruct (check_thread (Z.of_nat (List.length ns) - 1) 0 ts) as [[] | e] eqn:Hct;
      cbn [bind]; [| destruct e; discriminate].
    intro H. inversion H. split; [reflexivity |].
    exists ns, ts. repeat split.
    + exact (check_nails_ok_valid ns 0 Hcn).
    + apply check_thread_ok_inv in Hct.
      replace (Z.of_nat (List.length ns) - 1 + 1)%Z
        with (Z.of_nat (List.length ns)) in Hct by lia.
      exact Hct.
  - intros (-> & ns & ts & Hi & Hvn & Hit & Hvt).
    rewrite Hi. cbn [bind]. rewrite (check_nails_valid ns Hvn 0). cbn [bind].
    rewrite Hit. cbn [bind].
    destruct (check_thread_spec (Z.of_nat (List.length ns) - 1) ts 0)
      as [[Hok _] | (i & v & _ & Hbad)].
    + rewrite Hok. reflexivity.
    + exfalso. revert Hbad. apply first_bad_none.
      replace (Z.of_nat (List.length ns) - 1 + 1)%Z
        with (Z.of_nat (List.length ns)) by lia.
      rewrite forallb_forall in Hvt. apply forallb_forall.
      intros x Hx. rewrite (Hvt x Hx). reflexivity.
Qed.

(** A file with a third key, three nails and a thread that visits two. *)
Lemma load_accepts_exactly_valid_files_witness :
  load_thread_art "art.yml"
    (Parsed (PyDict [(KStr "title", PyStr "star");
                     (KStr "nails", PyList [point 0 0; point 1 0.5; point 0.25 1]);
                     (KStr "thread", PyList [PyInt 2; PyInt 0; PyInt 2])]))
  = Returns (PyList [point 0 0; point 1 0.5; point 0.25 1],
             PyList [PyInt 2; PyInt 0; PyInt 2]).
Proof.
  apply (load_accepts_exactly_valid_files "art.yml"
           [(KStr "title", PyStr "star");
            (KStr "nails", PyList [point 0 0; point 1 0.5; point 0.25 1]);
            (KStr "thread", PyList [PyInt 2; PyInt 0; PyInt 2])]
           (nails := PyList [point 0 0; point 1 0.5; point 0.25 1])
           (thread := PyList [PyInt 2; PyInt 0; PyInt 2])
           (PyList [point 0 0; point 1 0.5; point 0.25 1],
            PyList [PyInt 2; PyInt 0; PyInt 2])
           eq_refl eq_refl).
  split; [reflexivity |].
  exists [point 0 0; point 1 0.5; point 0.25 1], [PyInt 2; PyInt 0; PyInt 2].
  repeat split.
Defined.

Lemma py_iter_not_iterable (v : pyval) :
  not_iterable v = true -> py_iter v = Raise TypeError.
Proof. destruct v; simpl; intro H; try discriminate H; reflexivity. Qed.

(** X13: when the value under [nails] is not a sequence, a string or a
    mapping ([nails: null], [nails: 5]), [enumerate(nails)] raises a
    [TypeError] that no [except] clause catches, whatever [thread] is;
    the same happens for such a [thread] once every nail has passed. *)
Theorem load_scalar_sequence_uncaught
    (file_path : string) (items : list (pykey * pyval)) (nails thread : pyval) :
  lookup (PyStr "nails") items = Some nails ->
  lookup (PyStr "thread") items = Some thread ->
  (not_iterable nails = true ->
     load_thread_art file_path (Parsed (PyDict items)) = Uncaught TypeError) /\
  (forall ns,
     py_iter nails = Ok ns -> forallb valid_nail ns = true ->
     not_iterable thread = true ->
     load_thread_art file_path (Parsed (PyDict items)) = Uncaught TypeError).
Proof.
  intros Hn Ht. unfold load_thread_art. rewrite (load_body_with_keys items Hn Ht).
  split.
  - intro H. rewrite (py_iter_not_iterable nails H). reflexivity.
  - intros ns Hi Hvn H. rewrite Hi. cbn [bind].
    rewrite (check_nails_valid ns Hvn 0). cbn [bind].
    rewrite (py_iter_not_iterable thread H). reflexivity.
Qed.

(** [nails: 5]. *)
Lemma load_scalar_sequence_uncaught_witness :
  load_thread_art "art.yml" (Parsed (document (PyInt 5) (PyList [])))
  = Uncaught TypeError.
Proof.
  apply (load_scalar_sequence_uncaught "art.yml"
           [(KStr "nails", PyInt 5); (KStr "thread", PyList [])]
           (nails := PyInt 5) (thread := PyList []) eq_refl eq_refl).
  reflexivity.
Defined.

(** ** What the renderer draws *)

Lemma for_each_on_map {A B C : Type} (body : B -> result C) (g : A -> B) (f : A -> C)
    (l : list A) :
  (forall a, In a l -> body (g a) = Ok (f a)) ->
  for_each body (map g l) = Ok (map f l).
Proof.
  induction l as [| a l IH]; intro H; [reflexivity |].
  simpl. rewrite (H a (or_introl eq_refl)). simpl.
  rewrite IH; [reflexivity |]. intros x Hx. apply H. right. exact Hx.
Qed.

Lemma seq_index_nth {A : Type} (l : list A) (z : Z) (d : A) :
  (0 <= z < Z.of_nat (List.length l))%Z ->
  seq_index l z = Ok (nth (Z.to_nat z) l d).
Proof.
  intro Hz. unfold seq_index.
  destruct (Z.ltb_spec z 0); [lia |].
  destruct (Z.ltb_spec z 0); [lia |].
  destruct (Z.leb_spec (Z.of_nat (List.length l)) z); [lia |]. cbn [orb].
  rewrite (nth_error_nth' l d) by lia. reflexivity.
Qed.

Lemma seq_index_last {A : Type} (a : A) (l : list A) (d : A) :
  seq_index (a :: l) (-1) = Ok (last (a :: l) d).
Proof.
  unfold seq_index. cbn [Z.ltb Z.compare].
  set (n := Z.of_nat (List.length (a :: l))).
  assert (Hn : (0 < n)%Z) by (subst n; cbn [List.length]; lia).
  destruct (Z.ltb_spec (-1 + n) 0); [lia |].
  destruct (Z.leb_spec n (-1 + n)); [lia |]. cbn [orb].
  replace (Z.to_nat (-1 + n)) with (List.length l)
    by (subst n; cbn [List.length]; lia).
  assert (Hlast : forall (l0 : list A) (x : A),
            nth_error (x :: l0) (List.length l0) = Some (last (x :: l0) d)).
  { induction l0 as [| y l0 IH]; intro x; [reflexivity |].
    change (nth_error (y :: l0) (List.length l0) = Some (last (y :: l0) d)). apply IH. }
  rewrite Hlast. reflexivity.
Qed.

Lemma last_of_map {A B : Type} (f : A -> B) (l : list A) (d : A) :
  last (map f l) (f d) = f (last l d).
Proof.
  induction l as [| a l IH]; [reflexivity |].
  destruct l as [| b l]; [reflexivity |]. exact IH.
Qed.

Lemma nail_value_getitem (ns : list (pyval * pyval)) (z : Z) (d : pyval * pyval) :
  (0 <= z < Z.of_nat (List.length ns))%Z ->
  py_getitem (PyList (map nail_value ns)) (PyInt z)
  = Ok (nail_value (nth (Z.to_nat z) ns d)).
Proof.
  intro Hz. cbn [py_getitem].
  rewrite (seq_index_nth (map nail_value ns) (nail_value d))
    by (rewrite length_map; exact Hz).
  rewrite map_nth. reflexivity.
Qed.

Lemma unpack2_nail_value (c : pyval * pyval) : unpack2 (nail_value c) = Ok c.
Proof. destruct c. reflexivity. Qed.

Lemma discs_of_nails (ns : list (pyval * pyval)) :
  forall k,
    for_each (fun ix : nat * pyval =>
                bind (unpack2 (snd ix)) (fun xy => Ok (fst ix, xy)))
             (enumerate_from k (map nail_value ns))
    = Ok (enumerate_from k ns).
Proof.
  induction ns as [| c ns IH]; intro k; [reflexivity |].
  cbn [map enumerate_from for_each fst snd].
  rewrite unpack2_nail_value. cbn [bind]. rewrite IH. reflexivity.
Qed.

(** X14: for nails that are pairs and a thread of indices within range,
    the renderer draws one polyline point per thread entry, the
    coordinates of the nail it names, in thread order; one disc per nail
    with its index, used by the thread or not; the start marker on the
    nail of the first entry and the end marker on the nail of the last,
    and no marker for an empty thread; and it reports [len(nails)] nails
    and [len(thread) - 1] segments, 0 for an empty thread. *)
Theorem render_draws_the_thread (coords : list (pyval * pyval)) (thread : list Z) :
  Forall (fun z => (0 <= z < Z.of_nat (List.length coords))%Z) thread ->
  let nail_at z := nth (Z.to_nat z) coords (PyNone, PyNone) in
  visualize_thread_art (PyList (map nail_value coords)) (PyList (map PyInt thread))
  = Ok {| polyline := map nail_at thread;
          discs := enumerate_from 0 coords;
          markers := match thread with
                     | [] => None
                     | first :: _ => Some (nail_at first, nail_at (last thread first))
                     end;
          stats_nails := Z.of_nat (List.length coords);
          stats_segments := match thread with
                            | [] => 0%Z
                            | _ => (Z.of_nat (List.length thread) - 1)%Z
                            end |}.
Proof.
  intros Hrange nail_at. rewrite Forall_forall in Hrange.
  unfold visualize_thread_art. cbn [py_iter bind].
  rewrite (for_each_on_map
             (fun nail_idx => bind (py_getitem (PyList (map nail_value coords)) nail_idx)
                                   (fun nail => unpack2 nail))
             PyInt nail_at).
  2:{ intros z Hz. rewrite (nail_value_getitem coords (PyNone, PyNone) (Hrange z Hz)).
      cbn [bind]. apply unpack2_nail_value. }
  cbn [bind]. rewrite discs_of_nails. cbn [bind py_len].
  rewrite !length_map.
  destruct thread as [| first rest]; [reflexivity |].
  cbn [map py_truthy].
  assert (Hfirst : (0 <= first < Z.of_nat (List.length coords))%Z)
    by (apply Hrange; left; reflexivity).
  assert (Hlast : (0 <= last (first :: rest) first < Z.of_nat (List.length coords))%Z).
  { apply Hrange. destruct (exists_last (l := first :: rest)) as (l' & a & Heq);
      [discriminate |].
    rewrite Heq, last_last. apply in_or_app. right. left. reflexivity. }
  change (PyInt first :: map PyInt rest) with (map PyInt (first :: rest)).
  set (ts := first :: rest) in *.
  assert (H0 : py_getitem (PyList (map PyInt ts)) (PyInt 0) = Ok (PyInt first)) by reflexivity.
  assert (Hn : py_getitem (PyList (map PyInt ts)) (PyInt (-1)) = Ok (PyInt (last ts first))).
  { cbn [py_getitem]. subst ts. cbn [map].
    rewrite (seq_index_last (PyInt first) (map PyInt rest) (PyInt first)).
    change (PyInt first :: map PyInt rest) with (map PyInt (first :: rest)).
    rewrite last_of_map. reflexivity. }
  rewrite H0. cbn [bind].
  rewrite (nail_value_getitem coords (PyNone, PyNone) Hfirst). cbn [bind].
  rewrite Hn. cbn [bind].
  rewrite (nail_value_getitem coords (PyNone, PyNone) Hlast). cbn [bind].
  fold (nail_at first). fold (nail_at (last ts first)).
  destruct (nail_at first) as [sx sy]. destruct (nail_at (last ts first)) as [ex ey].
  reflexivity.
Qed.

(** Three nails and the self-loop [thread: [2, 2]]: two coincident
    polyline points, both markers on nail 2, one segment. *)
Lemma render_draws_the_thread_witness :
  visualize_thread_art
    (PyList (map nail_value [(PyInt 0, PyInt 0); (PyInt 1, PyInt 1); (PyFloat 0.5, PyInt 0)]))
    (PyList (map PyInt [2; 2]%Z))
  = Ok {| polyline := [(PyFloat 0.5, PyInt 0); (PyFloat 0.5, PyInt 0)];
          discs := [(0%nat, (PyInt 0, PyInt 0)); (1%nat, (PyInt 1, PyInt 1));
                    (2%nat, (PyFloat 0.5, PyInt 0))];
          markers := Some ((PyFloat 0.5, PyInt 0), (PyFloat 0.5, PyInt 0));
          stats_nails := 3;
          stats_segments := 1 |}.
Proof.
  apply (@render_draws_the_thread
           [(PyInt 0, PyInt 0); (PyInt 1, PyInt 1); (PyFloat 0.5, PyInt 0)] [2; 2]%Z).
  repeat constructor; simpl; lia.
Defined.

End MoreLoaderFacts.
